(** * Option helpers of the conan-qt recipe (options.py)

    A shallow embedding of [OptionBase], of its subclasses and of the two
    folding functions of options.py, with the properties of the option-model
    contract stated and proved on it.

    The recipe object [conan] is the external collaborator: the embedding
    keeps of it what options.py touches, namely [str(conan.settings.os)],
    the attribute store [conan.options] and the calls of [conan.requires].
    [GroupOption] (lines 80-115) is not an [OptionBase]: its methods read
    attributes its [__init__] never sets, line 106 is not an expression of
    the language, and no property below is about it. It is left out. *)

From Stdlib Require Import ZArith String Ascii List DecimalString.
From stdpp Require Import gmap strings list fin_maps.

Set Warnings "-register-all".
Local Open Scope string_scope.

(** ** Python values *)

Module Py.

(** The values options.py handles: [None], booleans, integers, strings and
    lists ([[True, False]], the enumerated domains, the platform lists).
    A string is a sequence of code points below 256. *)
Inductive PyVal : Type :=
| VNone
| VBool (b : bool)
| VInt (n : Z)
| VStr (s : string)
| VList (l : list PyVal).

Inductive exn : Type := AttributeError | KeyError | TypeError.

Inductive result (A : Type) : Type :=
| Ok (a : A)
| Raise (e : exn).
Arguments Ok {A} a.
Arguments Raise {A} e.

(** [bool(v)]: the test of [if v] and of [a and b]. *)
Definition truthy (v : PyVal) : bool :=
  match v with
  | VNone => false
  | VBool b => b
  | VInt n => negb (n =? 0)%Z
  | VStr s => negb (String.eqb s EmptyString)
  | VList l => match l with [] => false | _ => true end
  end.

(** [v is True]: [True] is a singleton, only the boolean itself passes. *)
Definition is_True (v : PyVal) : bool :=
  match v with
  | VBool true => true
  | _ => false
  end.

(** [v is None]. *)
Definition is_None (v : PyVal) : bool :=
  match v with
  | VNone => true
  | _ => false
  end.

Definition dquote : ascii := ascii_of_nat 34.
Definition squote : ascii := ascii_of_nat 39.
Definition backslash : ascii := ascii_of_nat 92.

Fixpoint has_char (c : ascii) (s : string) : bool :=
  match s with
  | EmptyString => false
  | String d s' => Ascii.eqb c d || has_char c s'
  end.

Definition hex_digit (n : nat) : ascii :=
  ascii_of_nat (if n <? 10 then 48 + n else 87 + n)%nat.

Definition hex_escape (n : nat) : string :=
  String backslash (String "x" (String (hex_digit (n / 16)%nat) (String (hex_digit (n mod 16)%nat) EmptyString))).

(** One character of [repr(s)], for the quote character [q] chosen. *)
Definition repr_char (q c : ascii) : string :=
  let n := nat_of_ascii c in
  if Ascii.eqb c q || Ascii.eqb c backslash then String backslash (String c EmptyString)
  else if (n =? 9)%nat then String backslash "t"
  else if (n =? 10)%nat then String backslash "n"
  else if (n =? 13)%nat then String backslash "r"
  else if (n <? 32)%nat || (n =? 127)%nat then hex_escape n
  else if (n <? 127)%nat then String c EmptyString
  else if (n <? 161)%nat || (n =? 173)%nat then hex_escape n
  else String c EmptyString.

Fixpoint repr_chars (q : ascii) (s : string) : string :=
  match s with
  | EmptyString => EmptyString
  | String c s' => repr_char q c ++ repr_chars q s'
  end.

(** [repr(s)] of a string: single quotes, unless the string holds a single
    quote and no double quote. *)
Definition repr_str (s : string) : string :=
  let q := if has_char squote s && negb (has_char dquote s) then dquote else squote in
  String q (repr_chars q s ++ String q EmptyString).

Definition str_int (n : Z) : string := NilZero.string_of_int (Z.to_int n).

(** [repr(v)]. *)
Fixpoint repr (v : PyVal) : string :=
  match v with
  | VNone => "None"
  | VBool true => "True"
  | VBool false => "False"
  | VInt n => str_int n
  | VStr s => repr_str s
  | VList l => "[" ++ String.concat ", " (List.map repr l) ++ "]"
  end.

(** [str(v)], which is also what a [{}] field of [str.format] renders. *)
Definition str (v : PyVal) : string :=
  match v with
  | VStr s => s
  | _ => repr v
  end.

(** [x == v] for a string [x]. *)
Definition str_eq (x : string) (v : PyVal) : bool :=
  match v with
  | VStr y => String.eqb x y
  | _ => false
  end.

(** [x in c] for a string [x]: membership in a list, substring of a string,
    TypeError on a value that is not a container. *)
Definition contains (x : string) (c : PyVal) : result bool :=
  match c with
  | VList l => Ok (existsb (str_eq x) l)
  | VStr s => Ok (match String.index 0 x s with Some _ => true | None => false end)
  | _ => Raise TypeError
  end.

End Py.
Import Py.

(** ** Effects

    A method either returns or raises, and what it has written before it
    raises stays written: a computation maps a state to an outcome and the
    state it leaves. *)

Definition M (S A : Type) : Type := S → result A * S.

Definition ret {S A : Type} (a : A) : M S A := λ s, (Ok a, s).

Definition raise {S A : Type} (e : exn) : M S A := λ s, (Raise e, s).

Definition bind {S A B : Type} (m : M S A) (k : A → M S B) : M S B :=
  λ s, match m s with
       | (Ok a, s') => k a s'
       | (Raise e, s') => (Raise e, s')
       end.

(** Reading the state with an operation that may raise. *)
Definition read {S A : Type} (f : S → result A) : M S A := λ s, (f s, s).

Definition modify {S : Type} (f : S → S) : M S unit := λ s, (Ok tt, f s).

Definition result_bind {A B : Type} (r : result A) (k : A → result B) : result B :=
  match r with
  | Ok a => k a
  | Raise e => Raise e
  end.

#[global] Instance M_ret {S : Type} : MRet (M S) := @ret S.
#[global] Instance M_bind {S : Type} : MBind (M S) := λ A B k m, bind m k.
#[global] Instance result_ret : MRet result := @Ok.
#[global] Instance result_bind_inst : MBind result := λ A B k r, result_bind r k.

(** [for x in l: f(x)]. *)
Fixpoint for_each {S A : Type} (f : A → M S unit) (l : list A) : M S unit :=
  match l with
  | [] => ret tt
  | x :: l' => f x ;; for_each f l'
  end.

(** ** The recipe object *)

(** [settings_os] is [str(conan.settings.os)], [options] the attributes of
    [conan.options] with their live values, [requires] the arguments of the
    calls of [conan.requires] so far, oldest first. *)
Record Conan : Type := mkConan {
  settings_os : string;
  options : gmap string PyVal;
  requires : list PyVal
}.

(** [getattr(store, name)]: AttributeError when the attribute is absent. *)
Definition getattr (store : gmap string PyVal) (name : string) : result PyVal :=
  match store !! name with
  | Some v => Ok v
  | None => Raise AttributeError
  end.

(** [store[name]]: KeyError when the key is absent. *)
Definition getitem (store : gmap string PyVal) (name : string) : result PyVal :=
  match store !! name with
  | Some v => Ok v
  | None => Raise KeyError
  end.

(** [delattr(conan.options, name)]: the store follows the attribute
    protocol on removal as on reading, AttributeError when the attribute is
    absent. *)
Definition delattr_options (name : string) : M Conan unit :=
  λ conan,
    match options conan !! name with
    | Some _ => (Ok tt, mkConan (settings_os conan) (delete name (options conan)) (requires conan))
    | None => (Raise AttributeError, conan)
    end.

(** [conan.requires(ref)]. *)
Definition conan_requires (ref : PyVal) : M Conan unit :=
  modify (λ conan, mkConan (settings_os conan) (options conan) (requires conan ++ [ref])%list).

(** ** Dictionaries passed by reference, and standard output *)

Definition loc : Type := positive.

(** [dicts] holds the dictionaries the collecting functions are handed, each
    under its reference; [stdout] the lines printed so far. *)
Record World : Type := mkWorld {
  dicts : gmap loc (gmap string PyVal);
  stdout : list string
}.

(** [print(line)]. *)
Definition print (line : string) : M World unit :=
  modify (λ w, mkWorld (dicts w) (stdout w ++ [line])%list).

(** [d[k] = v] on the dictionary that [d] refers to. *)
Definition dict_setitem (d : loc) (k : string) (v : PyVal) : M World unit :=
  modify (λ w, mkWorld (alter (insert k v) d (dicts w)) (stdout w)).

(** ** Option objects *)

(** The class of an option object, with the attributes its own [__init__]
    adds to those of [OptionBase]. *)
Inductive Kind : Type :=
| KOptionBase
| KSimpleOption (_option : PyVal)
| KPrependOption (_option _yes_prefix _no_prefix : PyVal)
| KYesNoOption (_option : PyVal)
| KSystemQtOption (_option : PyVal)
| KBinaryOption (_yes_option _no_option : PyVal)
| KValueOption (_option : PyVal).

Record OptionObj : Type := mkOption {
  _name : string;
  _values : PyVal;
  _default_value : PyVal;
  _os_availability : PyVal;
  _requirements : PyVal;
  kind : Kind
}.

Definition with_kind (self : OptionObj) (k : Kind) : OptionObj :=
  mkOption (_name self) (_values self) (_default_value self)
           (_os_availability self) (_requirements self) k.

(** *** Constructors

    Every [__init__] takes the name first; [args] are the positional
    arguments that follow it in the call. A call with too few or too many of
    them raises TypeError before the body runs; the trailing
    [os_availability] and [requirements] default to [None]. *)

Definition OptionBase_init (name : string) (args : list PyVal) : result OptionObj :=
  let body values default_value os_availability requirements :=
    Ok (mkOption name values default_value os_availability requirements KOptionBase) in
  match args with
  | [values; default_value] => body values default_value VNone VNone
  | [values; default_value; os_availability] => body values default_value os_availability VNone
  | [values; default_value; os_availability; requirements] =>
      body values default_value os_availability requirements
  | _ => Raise TypeError
  end.

Definition True_False : PyVal := VList [VBool true; VBool false].

Definition SimpleOption_init (name : string) (args : list PyVal) : result OptionObj :=
  let body default_values option os_availability requirements :=
    self ← OptionBase_init name [True_False; default_values; os_availability; requirements];
    Ok (with_kind self (KSimpleOption option)) in
  match args with
  | [default_values; option] => body default_values option VNone VNone
  | [default_values; option; os_availability] => body default_values option os_availability VNone
  | [default_values; option; os_availability; requirements] =>
      body default_values option os_availability requirements
  | _ => Raise TypeError
  end.

Definition PrependOption_init (name : string) (args : list PyVal) : result OptionObj :=
  let body default_value option yes_prefix no_prefix os_availability requirements :=
    self ← OptionBase_init name [True_False; default_value; os_availability; requirements];
    Ok (with_kind self (KPrependOption option yes_prefix no_prefix)) in
  match args with
  | [default_value; option; yes_prefix; no_prefix] =>
      body default_value option yes_prefix no_prefix VNone VNone
  | [default_value; option; yes_prefix; no_prefix; os_availability] =>
      body default_value option yes_prefix no_prefix os_availability VNone
  | [default_value; option; yes_prefix; no_prefix; os_availability; requirements] =>
      body default_value option yes_prefix no_prefix os_availability requirements
  | _ => Raise TypeError
  end.

(** [NoOption] adds no attribute and overrides no method: its [__init__]
    only calls the one of [PrependOption], with
    [name, [True, False], default_value, option], the empty string, ["no-"],
    [os_availability] and [requirements], in this order. *)
Definition NoOption_init (name : string) (args : list PyVal) : result OptionObj :=
  let body default_value option os_availability requirements :=
    PrependOption_init name
      [True_False; default_value; option; VStr EmptyString; VStr "no-"; os_availability; requirements] in
  match args with
  | [default_value; option] => body default_value option VNone VNone
  | [default_value; option; os_availability] => body default_value option os_availability VNone
  | [default_value; option; os_availability; requirements] =>
      body default_value option os_availability requirements
  | _ => Raise TypeError
  end.

Definition YesNoOption_init (name : string) (args : list PyVal) : result OptionObj :=
  let body default_value option os_availability requirements :=
    self ← OptionBase_init name [True_False; default_value; os_availability; requirements];
    Ok (with_kind self (KYesNoOption option)) in
  match args with
  | [default_value; option] => body default_value option VNone VNone
  | [default_value; option; os_availability] => body default_value option os_availability VNone
  | [default_value; option; os_availability; requirements] =>
      body default_value option os_availability requirements
  | _ => Raise TypeError
  end.

Definition SystemQtOption_init (name : string) (args : list PyVal) : result OptionObj :=
  let body default_value option os_availability requirements :=
    self ← OptionBase_init name [True_False; default_value; os_availability; requirements];
    Ok (with_kind self (KSystemQtOption option)) in
  match args with
  | [default_value; option] => body default_value option VNone VNone
  | [default_value; option; os_availability] => body default_value option os_availability VNone
  | [default_value; option; os_availability; requirements] =>
      body default_value option os_availability requirements
  | _ => Raise TypeError
  end.

Definition BinaryOption_init (name : string) (args : list PyVal) : result OptionObj :=
  let body default_value yes_option no_option os_availability requirements :=
    self ← OptionBase_init name [True_False; default_value; os_availability; requirements];
    Ok (with_kind self (KBinaryOption yes_option no_option)) in
  match args with
  | [default_value; yes_option; no_option] => body default_value yes_option no_option VNone VNone
  | [default_value; yes_option; no_option; os_availability] =>
      body default_value yes_option no_option os_availability VNone
  | [default_value; yes_option; no_option; os_availability; requirements] =>
      body default_value yes_option no_option os_availability requirements
  | _ => Raise TypeError
  end.

Definition ValueOption_init (name : string) (args : list PyVal) : result OptionObj :=
  let body values default_value option os_availability requirements :=
    self ← OptionBase_init name [values; default_value; os_availability; requirements];
    Ok (with_kind self (KValueOption option)) in
  match args with
  | [values; default_value; option] => body values default_value option VNone VNone
  | [values; default_value; option; os_availability] =>
      body values default_value option os_availability VNone
  | [values; default_value; option; os_availability; requirements] =>
      body values default_value option os_availability requirements
  | _ => Raise TypeError
  end.

(** ** Methods of [OptionBase] *)

(** [print("{} = {}".format(self._name, self._values)); options[self._name] = self._values] *)
Definition collect_option (self : OptionObj) (options : loc) : M World unit :=
  print (_name self ++ " = " ++ Py.str (_values self)) ;;
  dict_setitem options (_name self) (_values self).

Definition collect_default_option (self : OptionObj) (default_options : loc) : M World unit :=
  print (_name self ++ " = " ++ Py.str (_default_value self)) ;;
  dict_setitem default_options (_name self) (_default_value self).

(** [(self._os_availability is None) or (str(conan.settings.os) in self._os_availability)] *)
Definition _is_available (self : OptionObj) (conan : Conan) : result bool :=
  if is_None (_os_availability self) then Ok true
  else Py.contains (settings_os conan) (_os_availability self).

Definition get_value (self : OptionObj) (conan : Conan) : result PyVal :=
  getattr (options conan) (_name self).

(** [self.get_value(conan) is True] *)
Definition is_enable (self : OptionObj) (conan : Conan) : result bool :=
  v ← get_value self conan;
  Ok (is_True v).

Definition config_options (self : OptionObj) : M Conan unit :=
  available ← read (_is_available self);
  if negb available then delattr_options (_name self) else ret tt.

(** [and] evaluates [self.is_enable(conan)] only when what stands before it
    is true. *)
Definition requirements (self : OptionObj) : M Conan unit :=
  available ← read (_is_available self);
  if available && Py.truthy (_requirements self) then
    (enabled ← read (is_enable self);
     if (enabled : bool) then conan_requires (_requirements self) else ret tt) : M Conan unit
  else ret tt.

(** [pass]: no class of the file overrides it. *)
Definition apply_if_available (self : OptionObj) (conan : Conan) : M (list string) unit :=
  ret tt.

Definition apply (self : OptionObj) (conan : Conan) : M (list string) unit :=
  available ← read (λ _, _is_available self conan);
  if negb available then ret tt
  else apply_if_available self conan.

(** ** [apply_option] of the subclasses *)

(** [args.append(token)] *)
Definition append (token : string) : M (list string) unit :=
  modify (λ args, (args ++ [token])%list).

Definition SimpleOption_apply_option (self : OptionObj) (_option : PyVal) (conan : Conan)
    : M (list string) unit :=
  v ← read (λ _, get_value self conan);
  if Py.truthy v then append ("-" ++ Py.str _option) else ret tt.

Definition PrependOption_apply_option (self : OptionObj) (_option _yes_prefix _no_prefix : PyVal)
    (conan : Conan) : M (list string) unit :=
  v ← read (λ _, get_value self conan);
  if Py.truthy v then append ("-" ++ Py.str _yes_prefix ++ Py.str _option)
  else append ("-" ++ Py.str _no_prefix ++ Py.str _option).

Definition YesNoOption_apply_option (self : OptionObj) (_option : PyVal) (conan : Conan)
    : M (list string) unit :=
  v ← read (λ _, getitem (options conan) (_name self));
  append (("--" ++ Py.str _option ++ "=") ++ (if Py.truthy v then "yes" else "no")).

Definition SystemQtOption_apply_option (self : OptionObj) (_option : PyVal) (conan : Conan)
    : M (list string) unit :=
  v ← read (λ _, getitem (options conan) (_name self));
  append (("--" ++ Py.str _option ++ "=") ++ (if Py.truthy v then "system" else "qt")).

Definition BinaryOption_apply_option (self : OptionObj) (_yes_option _no_option : PyVal)
    (conan : Conan) : M (list string) unit :=
  v ← read (λ _, getattr (options conan) (_name self));
  append ("-" ++ Py.str (if Py.truthy v then _yes_option else _no_option)).

Definition ValueOption_apply_option (self : OptionObj) (_option : PyVal) (conan : Conan)
    : M (list string) unit :=
  v ← read (λ _, getitem (options conan) (_name self));
  append ("-" ++ Py.str _option ++ "=" ++ Py.str (VStr (Py.str v))).

(** [self.apply_option(conan, args)], resolved on the class of [self];
    [OptionBase] itself has no such attribute. *)
Definition apply_option (self : OptionObj) (conan : Conan) : M (list string) unit :=
  match kind self with
  | KOptionBase => raise AttributeError
  | KSimpleOption o => SimpleOption_apply_option self o conan
  | KPrependOption o y n => PrependOption_apply_option self o y n conan
  | KYesNoOption o => YesNoOption_apply_option self o conan
  | KSystemQtOption o => SystemQtOption_apply_option self o conan
  | KBinaryOption y n => BinaryOption_apply_option self y n conan
  | KValueOption o => ValueOption_apply_option self o conan
  end.

(** ** The folding functions *)

Definition make_options_dict (options : loc) (options_objects : list OptionObj) : M World loc :=
  for_each (λ option, collect_option option options) options_objects ;;
  ret options.

Definition make_default_options_dict (default_options : loc) (options_objects : list OptionObj)
    : M World loc :=
  for_each (λ option, collect_default_option option default_options) options_objects ;;
  ret default_options.

(** ** Vocabulary of the properties *)

(** What folding the insertions of [collect_option] over a list, left to
    right, makes of a dictionary. *)
Definition collected (m : gmap string PyVal) (objs : list OptionObj) : gmap string PyVal :=
  foldl (λ acc o, <[_name o := _values o]> acc) m objs.

(** [NoOption] as the table of rendering rules words it: [PrependOption]
    with the empty [yes_prefix] and [no_prefix = "no-"]. To be compared with
    [NoOption_init]. *)
Definition NoOption_spec (name : string) (default_value option os_availability requirements : PyVal)
    : result OptionObj :=
  PrependOption_init name
    [default_value; option; VStr EmptyString; VStr "no-"; os_availability; requirements].

(** What folding the insertions of a collecting function over a list makes
    of a dictionary, [f] being the attribute it stores ([_values] for
    [collect_option], [_default_value] for [collect_default_option]). *)
Definition collected_by (f : OptionObj → PyVal) (m : gmap string PyVal) (objs : list OptionObj)
    : gmap string PyVal :=
  foldl (λ acc o, <[_name o := f o]> acc) m objs.

(** The lines the collecting function that stores [f] prints over a list. *)
Definition printed_by (f : OptionObj → PyVal) (objs : list OptionObj) : list string :=
  List.map (λ o, _name o ++ " = " ++ Py.str (f o)) objs.

(** The last option of a list that bears the name [k]. *)
Definition last_named (k : string) (objs : list OptionObj) : option OptionObj :=
  last (filter (λ o, _name o = k) objs).

(** The names of the options of a list. *)
Definition names (objs : list OptionObj) : gset string := list_to_set (_name <$> objs).

(** The constructors of the kinds whose value domain is fixed. *)
Definition boolean_inits : list (string → list PyVal → result OptionObj) :=
  [SimpleOption_init; PrependOption_init; YesNoOption_init; SystemQtOption_init;
   BinaryOption_init].

(** Every constructor with the number of arguments its signature requires
    after the name. *)
Definition required_args : list ((string → list PyVal → result OptionObj) * nat) :=
  [(OptionBase_init, 2); (SimpleOption_init, 2); (PrependOption_init, 4);
   (YesNoOption_init, 2); (SystemQtOption_init, 2); (BinaryOption_init, 3);
   (ValueOption_init, 3)]%nat.


(** ** Sample objects and recipes *)

(** [SimpleOption("foo", True, "bar")] *)
Definition simple_foo : OptionObj :=
  mkOption "foo" True_False (VBool true) VNone VNone (KSimpleOption (VStr "bar")).

(** [PrependOption("foo", True, "bar", "with-", "without-")] *)
Definition prepend_foo : OptionObj :=
  mkOption "foo" True_False (VBool true) VNone VNone
           (KPrependOption (VStr "bar") (VStr "with-") (VStr "without-")).

(** [OptionBase("foo", [True, False], True, ["Linux"], "zlib/1.2.11")] *)
Definition linux_foo : OptionObj :=
  mkOption "foo" True_False (VBool true) (VList [VStr "Linux"]) (VStr "zlib/1.2.11") KOptionBase.

(** [ValueOption("foo", [1, 2, 3], 2, "level")] *)
Definition value_foo : OptionObj :=
  mkOption "foo" (VList [VInt 1; VInt 2; VInt 3]) (VInt 2) VNone VNone (KValueOption (VStr "level")).

(** [BinaryOption("shared", True, "shared", "static")] *)
Definition binary_shared : OptionObj :=
  mkOption "shared" True_False (VBool true) VNone VNone
           (KBinaryOption (VStr "shared") (VStr "static")).

(** [YesNoOption("qux", False, "qux", ["Windows"])] *)
Definition yesno_qux : OptionObj :=
  mkOption "qux" True_False (VBool false) (VList [VStr "Windows"]) VNone
           (KYesNoOption (VStr "qux")).

(** [OptionBase("foo", [True, False], True, True)]: a platform set that is
    no container. *)
Definition broken_foo : OptionObj :=
  mkOption "foo" True_False (VBool true) (VBool true) VNone KOptionBase.

(** A recipe on platform [os] whose option store holds [foo = v]. *)
Definition recipe (os : string) (v : PyVal) : Conan :=
  mkConan os {[ "foo" := v ]} [].

(** A world with one dictionary, under reference 1. *)
Definition world1 (m : gmap string PyVal) : World := mkWorld {[ 1%positive := m ]} [].

(** The state a computation leaves, and the state after running it [n] times. *)
Definition exec {S A : Type} (m : M S A) (s : S) : S := (m s).2.

Definition exec_times {S A : Type} (n : nat) (m : M S A) (s : S) : S := Nat.iter n (exec m) s.

(** ** The embedding on sample inputs *)

Example repr_domain : str (VList [VBool true; VBool false]) = "[True, False]".
Proof. reflexivity. Qed.

Example str_level : str (VInt 3) = "3" /\ str (VInt (-12)) = "-12" /\ str (VInt 0) = "0".
Proof. repeat split. Qed.

Example repr_platforms : str (VList [VStr "Linux"; VStr "it's"]) = "['Linux', " ++ String dquote ("it's" ++ String dquote "]").
Proof. reflexivity. Qed.

Example contains_platform :
  contains "Linux" (VList [VStr "Windows"; VStr "Linux"]) = Ok true /\
  contains "Linux" (VList [VStr "Windows"]) = Ok false /\
  contains "Lin" (VStr "Linux") = Ok true /\
  contains "Linux" (VInt 3) = Raise TypeError.
Proof. repeat split. Qed.

Example constructors_build :
  SimpleOption_init "foo" [VBool true; VStr "bar"] = Ok simple_foo ∧
  PrependOption_init "foo" [VBool true; VStr "bar"; VStr "with-"; VStr "without-"] = Ok prepend_foo ∧
  OptionBase_init "foo" [True_False; VBool true; VList [VStr "Linux"]; VStr "zlib/1.2.11"] = Ok linux_foo ∧
  ValueOption_init "foo" [VList [VInt 1; VInt 2; VInt 3]; VInt 2; VStr "level"] = Ok value_foo ∧
  SimpleOption_init "foo" [VBool true] = Raise TypeError.
Proof. repeat split. Qed.

Example renderings :
  apply_option simple_foo (recipe "Linux" (VBool true)) [] = (Ok tt, ["-bar"]) ∧
  apply_option simple_foo (recipe "Linux" (VBool false)) [] = (Ok tt, []) ∧
  apply_option prepend_foo (recipe "Linux" (VBool true)) [] = (Ok tt, ["-with-bar"]) ∧
  apply_option prepend_foo (recipe "Linux" (VBool false)) [] = (Ok tt, ["-without-bar"]) ∧
  apply_option value_foo (recipe "Linux" (VInt 3)) ["-v"] = (Ok tt, ["-v"; "-level=3"]) ∧
  apply_option linux_foo (recipe "Linux" (VBool true)) [] = (Raise AttributeError, []).
Proof. vm_compute. repeat split. Qed.

(** Unfolds the sequencing of a method body down to the case analysis on
    outcomes. *)
Ltac run_M := unfold mbind, M_bind, bind, read, result_bind_inst, result_bind.

(** ** The collecting functions *)

Section Collect.

Implicit Types (self : OptionObj) (d : loc) (w : World) (m : gmap string PyVal).

Lemma collect_option_run self d w :
  collect_option self d w =
    (Ok tt, mkWorld (alter (insert (_name self) (_values self)) d (dicts w))
                    (stdout w ++ [_name self ++ " = " ++ Py.str (_values self)])).
Proof. reflexivity. Qed.

Lemma collect_default_option_run self d w :
  collect_default_option self d w =
    (Ok tt, mkWorld (alter (insert (_name self) (_default_value self)) d (dicts w))
                    (stdout w ++ [_name self ++ " = " ++ Py.str (_default_value self)])).
Proof. reflexivity. Qed.

Lemma alter_insert_twice (k : string) (v : PyVal) d (h : gmap loc (gmap string PyVal)) :
  alter (insert k v) d (alter (insert k v) d h) = alter (insert k v) d h.
Proof.
  apply map_eq; intros d'. destruct (decide (d = d')) as [->|Hne].
  - rewrite !lookup_alter_eq. destruct (h !! d') as [m|]; simpl; [|done].
    by rewrite insert_insert_eq.
  - by rewrite !lookup_alter_ne.
Qed.

Lemma exec_times_collect (k : string) (v : PyVal) (c : M World unit) d n w :
  (∀ w', dicts (exec c w') = alter (insert k v) d (dicts w')) →
  dicts (exec_times (S n) c w) = alter (insert k v) d (dicts w).
Proof.
  intros Hc. induction n as [|n IH].
  - apply Hc.
  - change (exec_times (S (S n)) c w) with (exec c (exec_times (S n) c w)).
    rewrite Hc, IH. apply alter_insert_twice.
Qed.

(** Claim C4. For an option of any kind and a destination dictionary [m],
    [collect_option] returns and leaves the dictionary as [m] with
    [name → value_domain] inserted, [collect_default_option] as [m] with
    [name → default_value] inserted; any number of further calls leaves the
    dictionary as one call does. *)
Theorem collect_inserts_binding self d w m (n : nat) :
  dicts w !! d = Some m →
  (collect_option self d w).1 = Ok tt ∧
  dicts (exec (collect_option self d) w) !! d = Some (<[_name self := _values self]> m) ∧
  dicts (exec_times (S n) (collect_option self d) w) = dicts (exec (collect_option self d) w) ∧
  (collect_default_option self d w).1 = Ok tt ∧
  dicts (exec (collect_default_option self d) w) !! d
    = Some (<[_name self := _default_value self]> m) ∧
  dicts (exec_times (S n) (collect_default_option self d) w)
    = dicts (exec (collect_default_option self d) w).
Proof.
  intros Hm.
  assert (Ho : ∀ w', dicts (exec (collect_option self d) w')
                     = alter (insert (_name self) (_values self)) d (dicts w'))
    by reflexivity.
  assert (Hd : ∀ w', dicts (exec (collect_default_option self d) w')
                     = alter (insert (_name self) (_default_value self)) d (dicts w'))
    by reflexivity.
  rewrite (exec_times_collect _ _ _ d n w Ho), (exec_times_collect _ _ _ d n w Hd).
  rewrite !Ho, !Hd, !lookup_alter_eq, Hm.
  repeat split.
Qed.

Lemma collect_inserts_binding_witness :
  dicts (exec (collect_option simple_foo 1%positive) (world1 ∅)) !! 1%positive
    = Some {[ "foo" := True_False ]} ∧
  dicts (exec (collect_default_option simple_foo 1%positive) (world1 ∅)) !! 1%positive
    = Some {[ "foo" := VBool true ]}.
Proof.
  pose proof (collect_inserts_binding simple_foo 1%positive (world1 ∅) ∅ 2) as H.
  destruct H as (_ & H1 & _ & _ & H2 & _); [reflexivity|].
  split; [exact H1 | exact H2].
Defined.

(** Claim C10. [collect_option] and [collect_default_option] leave every
    binding of the destination dictionary under a key other than the
    option's name as it was, and every other dictionary untouched. *)
Theorem collect_frame self d w m (k : string) :
  dicts w !! d = Some m →
  k ≠ _name self →
  (∃ m1, dicts (exec (collect_option self d) w) !! d = Some m1 ∧ m1 !! k = m !! k) ∧
  (∃ m2, dicts (exec (collect_default_option self d) w) !! d = Some m2 ∧ m2 !! k = m !! k) ∧
  (∀ d', d' ≠ d →
     dicts (exec (collect_option self d) w) !! d' = dicts w !! d' ∧
     dicts (exec (collect_default_option self d) w) !! d' = dicts w !! d').
Proof.
  intros Hm Hk. unfold exec. rewrite collect_option_run, collect_default_option_run. simpl.
  split; [|split].
  - eexists. rewrite lookup_alter_eq, Hm. split; [reflexivity|]. by rewrite lookup_insert_ne.
  - eexists. rewrite lookup_alter_eq, Hm. split; [reflexivity|]. by rewrite lookup_insert_ne.
  - intros d' Hd. by rewrite !lookup_alter_ne.
Qed.

Lemma collect_frame_witness :
  ∃ m1, dicts (exec (collect_option simple_foo 1%positive) (world1 {[ "shared" := True_False ]}))
          !! 1%positive = Some m1 ∧
        m1 !! "shared" = Some True_False.
Proof.
  destruct (collect_frame simple_foo 1%positive (world1 {[ "shared" := True_False ]})
              {[ "shared" := True_False ]} "shared") as ((m1 & H1 & H2) & _).
  - reflexivity.
  - discriminate.
  - exists m1. split; [exact H1|]. rewrite H2. reflexivity.
Defined.

End Collect.

(** ** The folding functions *)

Section Fold.

Implicit Types (self o : OptionObj) (d : loc) (w : World) (m : gmap string PyVal).

Lemma for_each_cons {S A : Type} (f : A → M S unit) (x : A) (l : list A) (s : S) :
  for_each f (x :: l) s =
    match f x s with
    | (Ok _, s') => for_each f l s'
    | (Raise e, s') => (Raise e, s')
    end.
Proof. reflexivity. Qed.

Lemma for_each_collect_option d objs : ∀ w m,
  dicts w !! d = Some m →
  ∃ w', for_each (λ o, collect_option o d) objs w = (Ok tt, w') ∧
        dicts w' !! d = Some (collected m objs) ∧
        (∀ d', d' ≠ d → dicts w' !! d' = dicts w !! d').
Proof.
  induction objs as [|o objs IH]; intros w m Hm.
  - exists w. by repeat split.
  - rewrite for_each_cons, collect_option_run.
    destruct (IH (mkWorld (alter (insert (_name o) (_values o)) d (dicts w))
                          (stdout w ++ [_name o ++ " = " ++ Py.str (_values o)]))
                 (<[_name o := _values o]> m)) as (w' & Hrun & Hd & Hframe).
    { simpl. by rewrite lookup_alter_eq, Hm. }
    exists w'. split; [exact Hrun|]. split; [exact Hd|].
    intros d' Hne. rewrite (Hframe d' Hne). simpl. by rewrite lookup_alter_ne.
Qed.

Lemma collected_app m objs1 objs2 :
  collected m (objs1 ++ objs2) = collected (collected m objs1) objs2.
Proof. apply foldl_app. Qed.

Lemma collected_other m objs (k : string) :
  Forall (λ o, _name o ≠ k) objs → collected m objs !! k = m !! k.
Proof.
  revert m. induction objs as [|o objs IH]; intros m Hall; [done|].
  inversion Hall as [|? ? Hne Hrest]; subst. simpl.
  change (collected (<[_name o:=_values o]> m) objs !! k = m !! k).
  rewrite IH by done. by rewrite lookup_insert_ne.
Qed.

(** Last write wins: an option no later option shares its name with
    decides the binding of its name. *)
Lemma collected_last m objs1 o objs2 :
  Forall (λ o', _name o' ≠ _name o) objs2 →
  collected m (objs1 ++ o :: objs2) !! _name o = Some (_values o).
Proof.
  intros Hall. rewrite collected_app. simpl.
  change (collected (<[_name o:=_values o]> (collected m objs1)) objs2 !! _name o
          = Some (_values o)).
  rewrite collected_other by done. apply lookup_insert_eq.
Qed.

(** Claim C5. [make_options_dict] returns the reference it was handed, and
    leaves the dictionary under it as the left-to-right fold of the
    insertions of [collect_option]; two options of one name leave one
    binding for it, the value domain of the second, and from an empty
    dictionary nothing else. *)
Theorem make_options_dict_folds (options : loc) (objs : list OptionObj) w m :
  dicts w !! options = Some m →
  (make_options_dict options objs w).1 = Ok options ∧
  dicts (exec (make_options_dict options objs) w) !! options = Some (collected m objs) ∧
  (∀ o1 o2, objs = [o1; o2] → _name o1 = _name o2 →
     collected m objs = <[_name o2 := _values o2]> m ∧
     (m = ∅ → collected m objs = {[ _name o2 := _values o2 ]})).
Proof.
  intros Hm.
  destruct (for_each_collect_option options objs w m Hm) as (w' & Hrun & Hd & _).
  unfold exec, make_options_dict.
  change (for_each (λ option, collect_option option options) objs ;; ret options)
    with (bind (for_each (λ option, collect_option option options) objs)
               (λ _, ret options : M World loc)).
  unfold bind. rewrite Hrun. simpl.
  split; [done|]. split; [done|].
  intros o1 o2 -> Hname. simpl. rewrite Hname.
  split.
  - apply insert_insert_eq.
  - intros ->. rewrite insert_insert_eq. apply insert_empty.
Qed.

Lemma make_options_dict_folds_witness :
  dicts (world1 ∅) !! 1%positive = Some ∅ ∧
  (make_options_dict 1%positive [simple_foo; value_foo] (world1 ∅)).1 = Ok 1%positive ∧
  dicts (exec (make_options_dict 1%positive [simple_foo; value_foo]) (world1 ∅)) !! 1%positive
    = Some {[ "foo" := VList [VInt 1; VInt 2; VInt 3] ]}.
Proof.
  assert (H0 : dicts (world1 ∅) !! 1%positive = Some ∅) by reflexivity.
  destruct (make_options_dict_folds 1%positive [simple_foo; value_foo] (world1 ∅) ∅ H0)
    as (H1 & H2 & H3).
  destruct (H3 simple_foo value_foo eq_refl eq_refl) as (_ & H4).
  split; [exact H0|]. split; [exact H1|].
  exact (eq_trans H2 (f_equal Some (H4 eq_refl))).
Defined.

End Fold.

(** ** The recipe-time hooks *)

Section Hooks.

Implicit Types (self : OptionObj) (conan : Conan) (v : PyVal) (args : list string).

Lemma config_options_run self conan :
  config_options self conan =
    match _is_available self conan with
    | Ok true => (Ok tt, conan)
    | Ok false => delattr_options (_name self) conan
    | Raise e => (Raise e, conan)
    end.
Proof.
  unfold config_options. run_M.
  destruct (_is_available self conan) as [[|]|e]; reflexivity.
Qed.

Lemma requirements_run self conan :
  requirements self conan =
    match _is_available self conan with
    | Ok true =>
        if Py.truthy (_requirements self) then
          match is_enable self conan with
          | Ok true => (Ok tt, mkConan (settings_os conan) (options conan)
                                       (requires conan ++ [_requirements self]))
          | Ok false => (Ok tt, conan)
          | Raise e => (Raise e, conan)
          end
        else (Ok tt, conan)
    | Ok false => (Ok tt, conan)
    | Raise e => (Raise e, conan)
    end.
Proof.
  unfold requirements. run_M.
  destruct (_is_available self conan) as [[|]|e]; simpl; try reflexivity.
  destruct (Py.truthy (_requirements self)); simpl; try reflexivity.
  destruct (is_enable self conan) as [[|]|e]; reflexivity.
Qed.

Lemma is_enable_run self conan :
  is_enable self conan =
    match options conan !! _name self with
    | Some v => Ok (is_True v)
    | None => Raise AttributeError
    end.
Proof.
  unfold is_enable, get_value, getattr. run_M.
  destruct (options conan !! _name self); reflexivity.
Qed.

Lemma is_True_spec v : is_True v = true ↔ v = VBool true.
Proof.
  split; [|by intros ->].
  destruct v as [|[|]| | |]; simpl; intros H; congruence.
Qed.

(** The platform test does not read the option store. *)
Lemma _is_available_settings self conan conan' :
  settings_os conan' = settings_os conan →
  _is_available self conan' = _is_available self conan.
Proof. unfold _is_available. by intros ->. Qed.


Lemma delattr_present (name : string) conan v :
  options conan !! name = Some v →
  delattr_options name conan
    = (Ok tt, mkConan (settings_os conan) (delete name (options conan)) (requires conan)).
Proof. unfold delattr_options. by intros ->. Qed.

Lemma app_singleton_neq {A : Type} (l : list A) (x : A) : (l ++ [x])%list ≠ l.
Proof.
  intros H. apply (f_equal length) in H. rewrite length_app in H. simpl in H. lia.
Qed.




(** Claim C3. [requirements] hands the stored requirement to
    [conan.requires] when the option is available, the requirement is set
    (true as a condition: neither [None] nor empty) and the live value is the
    boolean [True], and only then; in every other case the recipe is left as
    it was, and on an unavailable option the call returns whatever the live
    value, or without one. *)
Theorem requirements_registers_iff self conan :
  let registers :=
    _is_available self conan = Ok true ∧
    Py.truthy (_requirements self) = true ∧
    options conan !! _name self = Some (VBool true) in
  (registers →
     requirements self conan
       = (Ok tt, mkConan (settings_os conan) (options conan)
                         (requires conan ++ [_requirements self]))) ∧
  (¬ registers → exec (requirements self) conan = conan) ∧
  (exec (requirements self) conan ≠ conan ↔ registers) ∧
  (_is_available self conan = Ok false → requirements self conan = (Ok tt, conan)).
Proof.
  intros registers. subst registers. unfold exec.
  rewrite requirements_run, is_enable_run.
  destruct (_is_available self conan) as [[|]|e]; cbn [fst snd];
    [ destruct (Py.truthy (_requirements self)); cbn [fst snd];
      [ destruct (options conan !! _name self) as [v|]; cbn [fst snd];
        [ destruct (is_True v) eqn:Hv; cbn [fst snd] | ] | ] | | ].
  - apply is_True_spec in Hv as ->.
    assert (mkConan (settings_os conan) (options conan) (requires conan ++ [_requirements self])
            ≠ conan).
    { intros H. apply (f_equal requires) in H. cbn [requires] in H.
      by apply app_singleton_neq in H. }
    repeat split; try done. intros H'; exfalso; apply H'; done.
  - assert (v ≠ VBool true) by (intros ->; done).
    repeat split; try done; intros (_ & _ & ?); congruence.
  - repeat split; try done; intros (_ & _ & ?); congruence.
  - repeat split; try done; intros (_ & ? & _); congruence.
  - repeat split; try done; intros (? & _ & _); congruence.
  - repeat split; try done; intros (? & _ & _); congruence.
Qed.

Lemma requirements_registers_iff_witness :
  (_is_available linux_foo (recipe "Linux" (VBool true)) = Ok true ∧
   Py.truthy (_requirements linux_foo) = true ∧
   options (recipe "Linux" (VBool true)) !! "foo" = Some (VBool true)) ∧
  requirements linux_foo (recipe "Linux" (VBool true))
    = (Ok tt, mkConan "Linux" {[ "foo" := VBool true ]} [VStr "zlib/1.2.11"]) ∧
  _is_available linux_foo (recipe "Windows" (VBool true)) = Ok false ∧
  requirements linux_foo (recipe "Windows" (VBool true))
    = (Ok tt, recipe "Windows" (VBool true)).
Proof.
  assert (Hreg : _is_available linux_foo (recipe "Linux" (VBool true)) = Ok true ∧
                 Py.truthy (_requirements linux_foo) = true ∧
                 options (recipe "Linux" (VBool true)) !! "foo" = Some (VBool true))
    by (split; [reflexivity | split; reflexivity]).
  assert (Hun : _is_available linux_foo (recipe "Windows" (VBool true)) = Ok false)
    by reflexivity.
  destruct (requirements_registers_iff linux_foo (recipe "Linux" (VBool true)))
    as (H1 & _).
  destruct (requirements_registers_iff linux_foo (recipe "Windows" (VBool true)))
    as (_ & _ & _ & H4).
  split; [exact Hreg|]. split; [exact (H1 Hreg)|]. split; [exact Hun|]. exact (H4 Hun).
Defined.

(** Claim C6. Once [config_options] has removed the attribute of an
    unavailable option from the option store, [get_value] on the recipe it
    leaves raises AttributeError instead of returning a value. *)
Theorem get_value_after_removal self conan v :
  _is_available self conan = Ok false →
  options conan !! _name self = Some v →
  get_value self conan = Ok v ∧
  (config_options self conan).1 = Ok tt ∧
  options (exec (config_options self) conan) = delete (_name self) (options conan) ∧
  get_value self (exec (config_options self) conan) = Raise AttributeError.
Proof.
  intros Hav Hv. unfold exec.
  rewrite config_options_run, Hav, (delattr_present _ _ _ Hv). cbn [fst snd options].
  unfold get_value, getattr. cbn [options]. rewrite Hv, lookup_delete_eq. done.
Qed.

Lemma get_value_after_removal_witness :
  _is_available linux_foo (recipe "Windows" (VBool true)) = Ok false ∧
  options (recipe "Windows" (VBool true)) !! "foo" = Some (VBool true) ∧
  get_value linux_foo (recipe "Windows" (VBool true)) = Ok (VBool true) ∧
  get_value linux_foo (exec (config_options linux_foo) (recipe "Windows" (VBool true)))
    = Raise AttributeError.
Proof.
  assert (Hav : _is_available linux_foo (recipe "Windows" (VBool true)) = Ok false)
    by reflexivity.
  assert (Hv : options (recipe "Windows" (VBool true)) !! _name linux_foo = Some (VBool true))
    by reflexivity.
  destruct (get_value_after_removal linux_foo (recipe "Windows" (VBool true)) (VBool true) Hav Hv)
    as (H1 & _ & _ & H4).
  split; [exact Hav|]. split; [exact Hv|]. split; [exact H1 | exact H4].
Defined.

(** Claim C8. [is_enable] returns true exactly when [get_value] returns the
    boolean [True]; on any other live value, a true-as-a-condition one such
    as a non-empty string included, it returns false. *)
Theorem is_enable_iff_True self conan :
  (is_enable self conan = Ok true ↔ get_value self conan = Ok (VBool true)) ∧
  (∀ v, get_value self conan = Ok v → v ≠ VBool true → is_enable self conan = Ok false) ∧
  (∀ s, get_value self conan = Ok (VStr s) →
     is_enable self conan = Ok false ∧ (s ≠ EmptyString → Py.truthy (VStr s) = true)).
Proof.
  rewrite is_enable_run. unfold get_value, getattr.
  destruct (options conan !! _name self) as [v|]; [|by repeat split].
  split; [|split].
  - split.
    + intros [= H]. apply is_True_spec in H. by subst.
    + intros [= ->]. done.
  - intros v' [= <-] Hne. f_equal. destruct (is_True v) eqn:H; [|done].
    apply is_True_spec in H. done.
  - intros s [= ->]. split; [done|]. intros Hs. simpl.
    destruct (String.eqb_spec s EmptyString); done.
Qed.

Lemma is_enable_iff_True_witness :
  get_value simple_foo (recipe "Linux" (VBool true)) = Ok (VBool true) ∧
  is_enable simple_foo (recipe "Linux" (VBool true)) = Ok true ∧
  get_value simple_foo (recipe "Linux" (VStr "True")) = Ok (VStr "True") ∧
  is_enable simple_foo (recipe "Linux" (VStr "True")) = Ok false ∧
  Py.truthy (VStr "True") = true.
Proof.
  assert (Ht : get_value simple_foo (recipe "Linux" (VBool true)) = Ok (VBool true))
    by reflexivity.
  assert (Hs : get_value simple_foo (recipe "Linux" (VStr "True")) = Ok (VStr "True"))
    by reflexivity.
  destruct (is_enable_iff_True simple_foo (recipe "Linux" (VBool true))) as ([_ H1] & _).
  destruct (is_enable_iff_True simple_foo (recipe "Linux" (VStr "True"))) as (_ & _ & H3).
  destruct (H3 "True" Hs) as (H4 & H5).
  split; [exact Ht|]. split; [exact (H1 Ht)|]. split; [exact Hs|]. split; [exact H4|].
  apply H5. discriminate.
Defined.

End Hooks.

(** ** Rendering *)

Section Rendering.

Implicit Types (self : OptionObj) (conan : Conan) (v : PyVal) (args : list string).

Lemma apply_run self conan args :
  apply self conan args =
    match _is_available self conan with
    | Ok _ => (Ok tt, args)
    | Raise e => (Raise e, args)
    end.
Proof.
  unfold apply. run_M.
  destruct (_is_available self conan) as [[|]|e]; reflexivity.
Qed.

Lemma SimpleOption_apply_option_run self (o : PyVal) conan args :
  SimpleOption_apply_option self o conan args =
    match options conan !! _name self with
    | Some v => (Ok tt, if Py.truthy v then (args ++ [("-" ++ Py.str o)%string])%list else args)
    | None => (Raise AttributeError, args)
    end.
Proof.
  unfold SimpleOption_apply_option, get_value, getattr. run_M.
  destruct (options conan !! _name self) as [v|]; [|reflexivity].
  destruct (Py.truthy v); reflexivity.
Qed.

(** A [SimpleOption] renders its flag on every live value that is true as
    a condition, the boolean [True] or not. *)
Lemma SimpleOption_renders_truthy self (o : PyVal) conan v args :
  kind self = KSimpleOption o →
  get_value self conan = Ok v →
  Py.truthy v = true →
  apply_option self conan args = (Ok tt, (args ++ [("-" ++ Py.str o)%string])%list) ∧
  is_enable self conan = Ok (is_True v).
Proof.
  intros Hk Hv Ht. unfold apply_option. rewrite Hk, SimpleOption_apply_option_run.
  rewrite is_enable_run. unfold get_value, getattr in Hv.
  destruct (options conan !! _name self) as [v'|]; [|done].
  injection Hv as ->. by rewrite Ht.
Qed.

(** Claim C9. There is a live value, the string ["True"], true as a
    condition and not the boolean [True], on which
    [SimpleOption.apply_option] appends the flag to the argument list while
    [is_enable] returns false on the same recipe. *)
Theorem SimpleOption_renders_when_not_enabled :
  ∃ self conan v (flag : string),
    kind self = KSimpleOption (VStr flag) ∧
    get_value self conan = Ok v ∧
    Py.truthy v = true ∧
    v ≠ VBool true ∧
    (∀ args, apply_option self conan args = (Ok tt, (args ++ [("-" ++ flag)%string])%list)) ∧
    is_enable self conan = Ok false.
Proof.
  exists simple_foo, (recipe "Linux" (VStr "True")), (VStr "True"), "bar".
  split; [reflexivity|]. split; [reflexivity|]. split; [reflexivity|]. split; [discriminate|].
  split.
  - intros args.
    apply (SimpleOption_renders_truthy simple_foo (VStr "bar") _ (VStr "True")); reflexivity.
  - apply (SimpleOption_renders_truthy simple_foo (VStr "bar") _ (VStr "True") []); reflexivity.
Qed.

(** Claim C1 on the code. [apply] leaves the argument list as it is on an
    unavailable option and on an available one alike: it calls
    [apply_if_available], which is [pass] in [OptionBase] and which no
    subclass overrides, so the rendering of [apply_option] never runs. For
    [SimpleOption("foo", True, "bar")], available with live value [True],
    [apply] appends nothing, where [apply_option] appends ["-bar"]. *)
Theorem apply_never_renders :
  (∀ self conan args, exec (apply self conan) args = args) ∧
  SimpleOption_init "foo" [VBool true; VStr "bar"] = Ok simple_foo ∧
  _is_available simple_foo (recipe "Linux" (VBool true)) = Ok true ∧
  get_value simple_foo (recipe "Linux" (VBool true)) = Ok (VBool true) ∧
  apply simple_foo (recipe "Linux" (VBool true)) [] = (Ok tt, []) ∧
  apply_option simple_foo (recipe "Linux" (VBool true)) [] = (Ok tt, ["-bar"]).
Proof.
  split.
  - intros self conan args. unfold exec. rewrite apply_run.
    destruct (_is_available self conan); reflexivity.
  - repeat split.
Qed.

(** Claim C7 on the code. The [__init__] of [NoOption] hands
    [PrependOption.__init__] one positional argument more than it takes, so
    every construction of a [NoOption] raises TypeError and there is no
    [NoOption] to render. [PrependOption] with the empty prefix and ["no-"]
    renders ["-bar"] on [True] and ["-no-bar"] on [False]. *)
Theorem NoOption_init_raises :
  (∀ (name : string) (call : list PyVal), NoOption_init name call = Raise TypeError) ∧
  NoOption_init "foo" [VBool true; VStr "bar"] = Raise TypeError ∧
  ∃ self,
    NoOption_spec "foo" (VBool true) (VStr "bar") VNone VNone = Ok self ∧
    apply_option self (recipe "Linux" (VBool true)) [] = (Ok tt, ["-bar"]) ∧
    apply_option self (recipe "Linux" (VBool false)) [] = (Ok tt, ["-no-bar"]).
Proof.
  split; [|split].
  - intros name call.
    destruct call as [|a1 [|a2 [|a3 [|a4 [|a5 call]]]]]; reflexivity.
  - reflexivity.
  - eexists. split; [reflexivity|]. split; reflexivity.
Qed.

End Rendering.

(** ** More on the folding functions *)

Section FoldMore.

Implicit Types (o : OptionObj) (d : loc) (w : World) (m : gmap string PyVal).
Implicit Types (f : OptionObj → PyVal) (objs : list OptionObj).

Lemma collected_by_snoc f m objs o :
  collected_by f m (objs ++ [o]) = <[_name o := f o]> (collected_by f m objs).
Proof. unfold collected_by. by rewrite foldl_app. Qed.

Lemma world_eta w : mkWorld (dicts w) (stdout w) = w.
Proof. by destruct w. Qed.

(** A loop of insertions into one dictionary, run as a whole. *)
Lemma for_each_collect_by f (c : OptionObj → loc → M World unit) d :
  (∀ o w, c o d w = (Ok tt, mkWorld (alter (insert (_name o) (f o)) d (dicts w))
                                    (stdout w ++ [_name o ++ " = " ++ Py.str (f o)]))) →
  ∀ objs w,
    for_each (λ o, c o d) objs w
      = (Ok tt, mkWorld (alter (λ m, collected_by f m objs) d (dicts w))
                        (stdout w ++ printed_by f objs)).
Proof.
  intros Hc objs. induction objs as [|o objs IH]; intros w.
  - simpl. unfold ret. f_equal. rewrite app_nil_r.
    rewrite (alter_id (λ m, m)) by done. by rewrite world_eta.
  - rewrite for_each_cons, Hc, IH. cbn [dicts stdout]. f_equal. f_equal.
    + by rewrite alter_alter_eq.
    + by rewrite <- app_assoc.
Qed.

Lemma make_options_dict_run d objs w :
  make_options_dict d objs w
    = (Ok d, mkWorld (alter (λ m, collected_by _values m objs) d (dicts w))
                     (stdout w ++ printed_by _values objs)).
Proof.
  unfold make_options_dict. run_M.
  by rewrite (for_each_collect_by _values collect_option d (λ o w', collect_option_run o d w')).
Qed.

Lemma make_default_options_dict_run d objs w :
  make_default_options_dict d objs w
    = (Ok d, mkWorld (alter (λ m, collected_by _default_value m objs) d (dicts w))
                     (stdout w ++ printed_by _default_value objs)).
Proof.
  unfold make_default_options_dict. run_M.
  by rewrite (for_each_collect_by _default_value collect_default_option d
                (λ o w', collect_default_option_run o d w')).
Qed.

Lemma collected_by_lookup f m objs (k : string) :
  collected_by f m objs !! k
    = match last_named k objs with
      | Some o => Some (f o)
      | None => m !! k
      end.
Proof.
  induction objs as [|o objs IH] using rev_ind; [done|].
  rewrite collected_by_snoc. unfold last_named in *. rewrite filter_app.
  destruct (decide (_name o = k)) as [Hk|Hk].
  - rewrite filter_cons_True by done. rewrite filter_nil, last_snoc.
    rewrite <- Hk. apply lookup_insert_eq.
  - rewrite filter_cons_False by done. rewrite filter_nil, app_nil_r.
    by rewrite lookup_insert_ne.
Qed.

Lemma collected_by_dom f m objs : dom (collected_by f m objs) = dom m ∪ names objs.
Proof.
  induction objs as [|o objs IH] using rev_ind.
  - unfold names. simpl. by rewrite (right_id_L ∅ (∪)).
  - rewrite collected_by_snoc, dom_insert_L, IH. unfold names.
    rewrite fmap_app, list_to_set_app_L. simpl. rewrite (right_id_L ∅ (∪)).
    rewrite (comm_L (∪) {[_name o]}), (assoc_L (∪)). done.
Qed.


(** [make_default_options_dict] returns the reference it was handed and
    leaves the dictionary under it as the left-to-right fold of the
    insertions [name → default_value]; the other dictionaries are untouched,
    and among options of one name the last one decides the default. *)
Theorem make_default_options_dict_folds d objs w m :
  dicts w !! d = Some m →
  (make_default_options_dict d objs w).1 = Ok d ∧
  dicts (exec (make_default_options_dict d objs) w) !! d
    = Some (collected_by _default_value m objs) ∧
  (∀ d', d' ≠ d → dicts (exec (make_default_options_dict d objs) w) !! d' = dicts w !! d') ∧
  (∀ o1 o2, objs = [o1; o2] → _name o1 = _name o2 →
     collected_by _default_value m objs = <[_name o2 := _default_value o2]> m).
Proof.
  intros Hm. unfold exec. rewrite make_default_options_dict_run. cbn [fst snd dicts].
  split; [done|]. split; [by rewrite lookup_alter_eq, Hm|]. split.
  - intros d' Hne. by rewrite lookup_alter_ne.
  - intros o1 o2 -> Hname. unfold collected_by. simpl. rewrite Hname.
    apply insert_insert_eq.
Qed.

Lemma make_default_options_dict_folds_witness :
  dicts (world1 ∅) !! 1%positive = Some ∅ ∧
  dicts (exec (make_default_options_dict 1%positive [simple_foo; value_foo]) (world1 ∅))
    !! 1%positive = Some {[ "foo" := VInt 2 ]}.
Proof.
  assert (H0 : dicts (world1 ∅) !! 1%positive = Some ∅) by reflexivity.
  destruct (make_default_options_dict_folds 1%positive [simple_foo; value_foo] (world1 ∅) ∅ H0)
    as (_ & H2 & _ & H4).
  split; [exact H0|].
  exact (eq_trans H2 (f_equal Some (H4 simple_foo value_foo eq_refl eq_refl))).
Defined.

(** After either folding function, a key of the dictionary is bound to the
    attribute of the last option of the list that bears it as name, and keeps
    the binding it had, or none, when no option of the list does. *)
Theorem folds_lookup_last_named d objs w m (k : string) :
  dicts w !! d = Some m →
  ∃ m1 m2,
    dicts (exec (make_options_dict d objs) w) !! d = Some m1 ∧
    dicts (exec (make_default_options_dict d objs) w) !! d = Some m2 ∧
    m1 !! k = match last_named k objs with Some o => Some (_values o) | None => m !! k end ∧
    m2 !! k = match last_named k objs with
              | Some o => Some (_default_value o)
              | None => m !! k
              end.
Proof.
  intros Hm. unfold exec.
  rewrite make_options_dict_run, make_default_options_dict_run. cbn [snd dicts].
  rewrite !lookup_alter_eq, Hm.
  eexists _, _. split; [reflexivity|]. split; [reflexivity|].
  split; apply collected_by_lookup.
Qed.

Lemma folds_lookup_last_named_witness :
  dicts (world1 {[ "old" := VInt 7 ]}) !! 1%positive = Some {[ "old" := VInt 7 ]} ∧
  ∃ m1 m2,
    dicts (exec (make_options_dict 1%positive [simple_foo; binary_shared; value_foo])
                (world1 {[ "old" := VInt 7 ]})) !! 1%positive = Some m1 ∧
    dicts (exec (make_default_options_dict 1%positive [simple_foo; binary_shared; value_foo])
                (world1 {[ "old" := VInt 7 ]})) !! 1%positive = Some m2 ∧
    m1 !! "foo" = Some (VList [VInt 1; VInt 2; VInt 3]) ∧
    m2 !! "foo" = Some (VInt 2).
Proof.
  assert (H0 : dicts (world1 {[ "old" := VInt 7 ]}) !! 1%positive = Some {[ "old" := VInt 7 ]})
    by reflexivity.
  split; [exact H0|].
  destruct (folds_lookup_last_named 1%positive [simple_foo; binary_shared; value_foo]
              (world1 {[ "old" := VInt 7 ]}) {[ "old" := VInt 7 ]} "foo" H0)
    as (m1 & m2 & H1 & H2 & H3 & H4).
  exists m1, m2. split; [exact H1|]. split; [exact H2|]. split; [exact H3 | exact H4].
Defined.

(** The folding functions never raise, whatever the list and the options in
    it, print one line per option, in the order of the list, after what was
    printed before, and print nothing on the empty list. *)
Theorem folds_print_one_line_each d objs w :
  (make_options_dict d objs w).1 = Ok d ∧
  stdout (exec (make_options_dict d objs) w) = (stdout w ++ printed_by _values objs)%list ∧
  (make_default_options_dict d objs w).1 = Ok d ∧
  stdout (exec (make_default_options_dict d objs) w)
    = (stdout w ++ printed_by _default_value objs)%list ∧
  length (printed_by _values objs) = length objs ∧
  length (printed_by _default_value objs) = length objs.
Proof.
  unfold exec. rewrite make_options_dict_run, make_default_options_dict_run.
  cbn [fst snd stdout]. unfold printed_by. rewrite !length_map. done.
Qed.

(** Folding a list made of two parts is folding the first part and then the
    second, dictionaries and printed lines alike. *)
Theorem folds_app d (objs1 objs2 : list OptionObj) w :
  exec (make_options_dict d (objs1 ++ objs2)) w
    = exec (make_options_dict d objs2) (exec (make_options_dict d objs1) w) ∧
  exec (make_default_options_dict d (objs1 ++ objs2)) w
    = exec (make_default_options_dict d objs2) (exec (make_default_options_dict d objs1) w).
Proof.
  unfold exec. rewrite !make_options_dict_run, !make_default_options_dict_run.
  cbn [snd dicts stdout]. unfold printed_by, collected_by.
  rewrite !map_app, !app_assoc, !alter_alter_eq.
  split; f_equal; apply alter_ext; intros m _; simpl; apply foldl_app.
Qed.



(** Run one after the other on two different dictionaries, the two folding
    functions leave in the first the collected value domains and in the
    second the collected defaults, each with the keys it had and the names
    of the options: the same key set when they started with the same. *)
Theorem folds_same_keys (d1 d2 : loc) objs w (m1 m2 : gmap string PyVal) :
  d1 ≠ d2 →
  dicts w !! d1 = Some m1 →
  dicts w !! d2 = Some m2 →
  let w' := exec (make_default_options_dict d2 objs) (exec (make_options_dict d1 objs) w) in
  ∃ m1' m2',
    dicts w' !! d1 = Some m1' ∧ dicts w' !! d2 = Some m2' ∧
    m1' = collected m1 objs ∧
    m2' = collected_by _default_value m2 objs ∧
    dom m1' = dom m1 ∪ names objs ∧
    dom m2' = dom m2 ∪ names objs ∧
    (dom m1 = dom m2 → dom m1' = dom m2').
Proof.
  intros Hne H1 H2 w'. subst w'. unfold exec.
  rewrite make_options_dict_run, make_default_options_dict_run. cbn [snd dicts].
  rewrite lookup_alter_ne by done. rewrite !lookup_alter_eq.
  rewrite lookup_alter_ne by done. rewrite H1, H2.
  eexists _, _. split; [reflexivity|]. split; [reflexivity|].
  split; [reflexivity|]. split; [reflexivity|].
  change (collected_by _values m1 objs) with (collected m1 objs).
  unfold collected. fold (collected_by _values m1 objs).
  rewrite !collected_by_dom. split; [done|]. split; [done|]. by intros ->.
Qed.

Lemma folds_same_keys_witness :
  let w := mkWorld {[ 1%positive := ∅; 2%positive := ∅ ]} [] in
  let w' := exec (make_default_options_dict 2%positive [simple_foo; binary_shared])
                 (exec (make_options_dict 1%positive [simple_foo; binary_shared]) w) in
  ∃ m1' m2', dicts w' !! 1%positive = Some m1' ∧ dicts w' !! 2%positive = Some m2' ∧
             dom m1' = dom m2'.
Proof.
  intros w w'.
  destruct (folds_same_keys 1%positive 2%positive [simple_foo; binary_shared] w ∅ ∅)
    as (m1' & m2' & H1 & H2 & _ & _ & _ & _ & H7); [discriminate|reflexivity|reflexivity|].
  exists m1', m2'. split; [exact H1|]. split; [exact H2|]. exact (H7 eq_refl).
Defined.

End FoldMore.

(** ** More on rendering *)

Ltac render :=
  unfold apply_option, SimpleOption_apply_option, PrependOption_apply_option,
    YesNoOption_apply_option, SystemQtOption_apply_option, BinaryOption_apply_option,
    ValueOption_apply_option, get_value, getattr, getitem, append, modify, raise, ret, exec;
  run_M.

Section RenderingMore.

Implicit Types (self : OptionObj) (conan : Conan) (v : PyVal) (args : list string).

(** Whatever the kind, [apply_option] leaves the tokens the argument list
    held in place and adds at most one after them, which starts with a
    dash; when it raises, it has added none. *)
Theorem apply_option_appends_at_most_one self conan args :
  ∃ suffix : list string,
    exec (apply_option self conan) args = (args ++ suffix)%list ∧
    (length suffix ≤ 1)%nat ∧
    (∀ t, t ∈ suffix → ∃ rest, t = String "-" rest) ∧
    ((apply_option self conan args).1 ≠ Ok tt → suffix = []).
Proof.
  render.
  destruct (kind self) as [|o|o y n|o|o|y n|o];
    [ exists []
    | destruct (options conan !! _name self) as [v|];
      [ destruct (Py.truthy v); [eexists [_] | exists []] | exists [] ]
    | destruct (options conan !! _name self) as [v|];
      [ destruct (Py.truthy v); eexists [_] | exists [] ]
    | destruct (options conan !! _name self) as [v|]; [ eexists [_] | exists [] ]
    | destruct (options conan !! _name self) as [v|]; [ eexists [_] | exists [] ]
    | destruct (options conan !! _name self) as [v|]; [ eexists [_] | exists [] ]
    | destruct (options conan !! _name self) as [v|]; [ eexists [_] | exists [] ] ];
    cbn [fst snd length];
    (split; [by rewrite ?app_nil_r|]); (split; [lia|]);
    (split; [|try done; intros H; by destruct H]);
    intros t Ht; try (by apply elem_of_nil in Ht);
    apply list_elem_of_singleton in Ht as ->; eexists; reflexivity.
Qed.


(** The kinds other than [ValueOption] read of the live value only whether
    it is true as a condition: on two recipes whose live values agree on
    that, they render alike. *)
Theorem apply_option_reads_truth_only self conan1 conan2 v1 v2 args :
  (∀ o, kind self ≠ KValueOption o) →
  options conan1 !! _name self = Some v1 →
  options conan2 !! _name self = Some v2 →
  Py.truthy v1 = Py.truthy v2 →
  apply_option self conan1 args = apply_option self conan2 args.
Proof.
  intros Hk H1 H2 Ht. render. rewrite H1, H2, Ht.
  destruct (kind self) as [|o|o y n|o|o|y n|o]; try reflexivity.
  by destruct (Hk o).
Qed.

Lemma apply_option_reads_truth_only_witness :
  apply_option binary_shared (mkConan "Linux" {[ "shared" := VStr "yes" ]} []) ["-v"]
    = apply_option binary_shared (mkConan "Linux" {[ "shared" := VInt 1 ]} []) ["-v"].
Proof.
  apply (apply_option_reads_truth_only binary_shared _ _ (VStr "yes") (VInt 1)).
  - intros o. discriminate.
  - reflexivity.
  - reflexivity.
  - reflexivity.
Defined.

(** With a live value in the store, every subclass but [SimpleOption] adds
    exactly one token, whatever the value; [SimpleOption] adds one when the
    value is true as a condition and none otherwise. *)
Theorem apply_option_token_count self conan v args :
  kind self ≠ KOptionBase →
  options conan !! _name self = Some v →
  length (exec (apply_option self conan) args)
    = (length args + match kind self with
                     | KSimpleOption _ => if Py.truthy v then 1 else 0
                     | _ => 1
                     end)%nat.
Proof.
  intros Hk Hv. render. rewrite Hv.
  destruct (kind self) as [|o|o y n|o|o|y n|o]; [done|..];
    try destruct (Py.truthy v); cbn [snd]; rewrite ?length_app; simpl; lia.
Qed.

Lemma apply_option_token_count_witness :
  length (exec (apply_option prepend_foo (recipe "Linux" (VBool false))) ["-v"]) = 2 ∧
  length (exec (apply_option simple_foo (recipe "Linux" (VBool false))) ["-v"]) = 1.
Proof.
  split.
  - apply (apply_option_token_count prepend_foo (recipe "Linux" (VBool false)) (VBool false));
      [discriminate | reflexivity].
  - apply (apply_option_token_count simple_foo (recipe "Linux" (VBool false)) (VBool false));
      [discriminate | reflexivity].
Defined.

End RenderingMore.

(** ** The constructors *)

Ltac by_arity args :=
  destruct args as [|? [|? [|? [|? [|? [|? [|? ?]]]]]]]; simpl.

Ltac split_inits H :=
  repeat (apply elem_of_cons in H as [->|H]); [..|by apply elem_of_nil in H].

Section Constructors.

Implicit Types (name : string) (call : list PyVal) (self : OptionObj).


(** An object of a kind with a fixed value domain, however it was built,
    bears the name it was given, the value domain [[True, False]] and, as
    default, the first argument after the name; a [ValueOption] has the
    domain and the default it was given, in this order. *)
Theorem constructors_store_arguments name call self :
  (∀ init, init ∈ boolean_inits → init name call = Ok self →
     _name self = name ∧ _values self = True_False ∧
     call !! 0%nat = Some (_default_value self) ∧ kind self ≠ KOptionBase) ∧
  (ValueOption_init name call = Ok self →
     _name self = name ∧ call !! 0%nat = Some (_values self) ∧
     call !! 1%nat = Some (_default_value self) ∧
     ∃ o, kind self = KValueOption o ∧ call !! 2%nat = Some o).
Proof.
  split.
  - intros init Hin. unfold boolean_inits in Hin. split_inits Hin;
      by_arity call; intros [= <-]; done.
  - by_arity call; intros [= <-]; repeat split; by eexists.
Qed.

Lemma constructors_store_arguments_witness :
  BinaryOption_init "shared" [VBool true; VStr "shared"; VStr "static"] = Ok binary_shared ∧
  _values binary_shared = True_False ∧
  [VBool true; VStr "shared"; VStr "static"] !! 0%nat = Some (_default_value binary_shared).
Proof.
  assert (H0 : BinaryOption_init "shared" [VBool true; VStr "shared"; VStr "static"]
               = Ok binary_shared) by reflexivity.
  assert (Hin : BinaryOption_init ∈ boolean_inits).
  { unfold boolean_inits. do 4 apply list_elem_of_further. apply list_elem_of_here. }
  destruct (constructors_store_arguments "shared"
              [VBool true; VStr "shared"; VStr "static"] binary_shared) as (H1 & _).
  destruct (H1 BinaryOption_init Hin H0) as (_ & H2 & H3 & _).
  split; [exact H0|]. split; [exact H2 | exact H3].
Defined.

End Constructors.

(** ** More on the recipe-time hooks *)

Section HooksMore.

Implicit Types (self a b : OptionObj) (conan : Conan) (v : PyVal) (args : list string).

Lemma existsb_str_eq (x : string) (l : list PyVal) :
  existsb (str_eq x) l = true ↔ VStr x ∈ l.
Proof.
  induction l as [|v l IH]; simpl.
  - split; [done|]. by intros ?%elem_of_nil.
  - rewrite orb_true_iff, IH, elem_of_cons. apply or_iff_compat_r.
    destruct v as [| | |s|]; simpl; try (split; [done|by intros [=]]).
    rewrite String.eqb_eq. split; [by intros ->|by intros [=]].
Qed.

(** What [config_options] leaves: the attribute gone when the option is
    unavailable, everything else as it was, whether the call returned or
    raised. *)
Lemma config_options_exec self conan :
  exec (config_options self) conan
    = mkConan (settings_os conan)
              (match _is_available self conan with
               | Ok false => delete (_name self) (options conan)
               | _ => options conan
               end)
              (requires conan).
Proof.
  unfold exec. rewrite config_options_run.
  destruct (_is_available self conan) as [[|]|e]; try by destruct conan.
  unfold delattr_options.
  destruct (options conan !! _name self) eqn:Hv; [done|].
  cbn [snd]. rewrite delete_id by done. by destruct conan.
Qed.

(** An option built with the required arguments only is available on every
    platform and has no requirement: [config_options], [requirements] and
    [apply] return on every recipe and change nothing. *)
Theorem required_arguments_only_never_pruned (init : string → list PyVal → result OptionObj)
    (n : nat) (name : string) (call : list PyVal) :
  (init, n) ∈ required_args →
  length call = n →
  ∃ self, init name call = Ok self ∧
    _os_availability self = VNone ∧ _requirements self = VNone ∧
    ∀ conan args,
      _is_available self conan = Ok true ∧
      config_options self conan = (Ok tt, conan) ∧
      requirements self conan = (Ok tt, conan) ∧
      apply self conan args = (Ok tt, args).
Proof.
  intros Hin Hlen. unfold required_args in Hin.
  repeat (apply elem_of_cons in Hin as [[= -> ->]|Hin]); [..|by apply elem_of_nil in Hin];
    by_arity call; try done;
    (eexists; split; [reflexivity|]; split; [reflexivity|]; split; [reflexivity|];
     intros conan args;
     rewrite config_options_run, requirements_run, apply_run; by repeat split).
Qed.

Lemma required_arguments_only_never_pruned_witness :
  ∃ self, SimpleOption_init "foo" [VBool true; VStr "bar"] = Ok self ∧
          config_options self (recipe "Windows" (VBool true))
            = (Ok tt, recipe "Windows" (VBool true)).
Proof.
  assert (Hin : (SimpleOption_init, 2%nat) ∈ required_args).
  { unfold required_args. apply list_elem_of_further, list_elem_of_here. }
  destruct (required_arguments_only_never_pruned SimpleOption_init 2 "foo"
              [VBool true; VStr "bar"] Hin eq_refl) as (self & H1 & _ & _ & H4).
  exists self. split; [exact H1|].
  exact (proj1 (proj2 (H4 (recipe "Windows" (VBool true)) []))).
Defined.

(** With a list as platform set, the option is available exactly when the
    platform string is an element of the list: [config_options] then leaves
    the recipe alone, and otherwise leaves the store without the attribute. *)
Theorem listed_platforms_decide self conan (l : list PyVal) :
  _os_availability self = VList l →
  (_is_available self conan = Ok true ↔ VStr (settings_os conan) ∈ l) ∧
  (_is_available self conan = Ok false ↔ VStr (settings_os conan) ∉ l) ∧
  (VStr (settings_os conan) ∈ l → config_options self conan = (Ok tt, conan)) ∧
  (VStr (settings_os conan) ∉ l →
     options (exec (config_options self) conan) = delete (_name self) (options conan)).
Proof.
  intros Hos.
  assert (Hav : _is_available self conan
                = Ok (existsb (str_eq (settings_os conan)) l)).
  { unfold _is_available. by rewrite Hos. }
  rewrite config_options_exec, config_options_run, Hav.
  pose proof (existsb_str_eq (settings_os conan) l) as Hiff.
  destruct (existsb (str_eq (settings_os conan)) l).
  - assert (VStr (settings_os conan) ∈ l) by by apply Hiff.
    repeat split; try done.
  - assert (VStr (settings_os conan) ∉ l) by (intros ?%Hiff; done).
    repeat split; try done.
Qed.

Lemma listed_platforms_decide_witness :
  _os_availability yesno_qux = VList [VStr "Windows"] ∧
  _is_available yesno_qux (mkConan "Linux" {[ "qux" := VBool true ]} []) = Ok false ∧
  options (exec (config_options yesno_qux) (mkConan "Linux" {[ "qux" := VBool true ]} []))
    = delete "qux" {[ "qux" := VBool true ]}.
Proof.
  assert (H0 : _os_availability yesno_qux = VList [VStr "Windows"]) by reflexivity.
  assert (Hn : VStr "Linux" ∉ [VStr "Windows"]).
  { intros H. apply list_elem_of_singleton in H. discriminate. }
  destruct (listed_platforms_decide yesno_qux (mkConan "Linux" {[ "qux" := VBool true ]} [])
              [VStr "Windows"] H0) as (_ & H2 & _ & H4).
  split; [exact H0|]. split; [exact (proj2 H2 Hn) | exact (H4 Hn)].
Defined.

(** When the platform test raises, the platform set being neither [None]
    nor a list nor a string, it raises TypeError, and so it does on every
    recipe; [config_options], [requirements] and [apply] raise it too and
    change nothing. *)
Theorem platform_test_raise_propagates self conan (e : exn) :
  _is_available self conan = Raise e →
  e = TypeError ∧
  ((∃ t : bool, _os_availability self = VBool t) ∨
   (∃ n : Z, _os_availability self = VInt n)) ∧
  (∀ conan' args,
     _is_available self conan' = Raise TypeError ∧
     config_options self conan' = (Raise TypeError, conan') ∧
     requirements self conan' = (Raise TypeError, conan') ∧
     apply self conan' args = (Raise TypeError, args)).
Proof.
  unfold _is_available. destruct (_os_availability self) as [|t|n|s|l] eqn:Hos;
    simpl; intros [= <-]; (split; [done|]); (split; [eauto|]);
    intros conan' args;
    rewrite config_options_run, requirements_run, apply_run;
    unfold _is_available; rewrite Hos; simpl; done.
Qed.

Lemma platform_test_raise_propagates_witness :
  _is_available broken_foo (recipe "Linux" (VBool true)) = Raise TypeError ∧
  config_options broken_foo (recipe "Windows" (VBool true))
    = (Raise TypeError, recipe "Windows" (VBool true)).
Proof.
  assert (H0 : _is_available broken_foo (recipe "Linux" (VBool true)) = Raise TypeError)
    by reflexivity.
  destruct (platform_test_raise_propagates broken_foo _ _ H0) as (_ & _ & H3).
  split; [exact H0|]. exact (proj1 (proj2 (H3 (recipe "Windows" (VBool true)) []))).
Defined.

End HooksMore.

(** ** How the hooks compose *)

Section HooksCompose.

Implicit Types (self a b : OptionObj) (conan : Conan) (v : PyVal) (args : list string).

Lemma apply_option_absent self conan args :
  options conan !! _name self = None →
  ∃ e, apply_option self conan args = (Raise e, args).
Proof.
  intros Hv. render. rewrite Hv.
  destruct (kind self); by eexists.
Qed.

Lemma _is_available_raise self conan (e : exn) :
  _is_available self conan = Raise e → e = TypeError.
Proof.
  unfold _is_available. destruct (_os_availability self); simpl; by intros [= <-].
Qed.

(** Once [config_options] has removed the attribute of an unavailable
    option, [requirements] and [apply] still return on the recipe it leaves
    and change nothing: they test the platform before they read the live
    value. [is_enable] and [apply_option], which read it at once, raise. *)
Theorem hooks_after_removal self conan v args :
  _is_available self conan = Ok false →
  options conan !! _name self = Some v →
  let conan1 := exec (config_options self) conan in
  requirements self conan1 = (Ok tt, conan1) ∧
  apply self conan1 args = (Ok tt, args) ∧
  is_enable self conan1 = Raise AttributeError ∧
  (∃ e, apply_option self conan1 args = (Raise e, args)).
Proof.
  intros Hav Hv conan1. subst conan1. rewrite config_options_exec, Hav.
  set (conan1 := mkConan _ _ _).
  assert (Hav1 : _is_available self conan1 = Ok false).
  { rewrite <- Hav. by apply _is_available_settings. }
  assert (Hv1 : options conan1 !! _name self = None) by apply lookup_delete_eq.
  rewrite requirements_run, apply_run, is_enable_run, Hav1, Hv1.
  repeat split; try done.
  by apply apply_option_absent.
Qed.

Lemma hooks_after_removal_witness :
  let conan1 := exec (config_options linux_foo) (recipe "Windows" (VBool true)) in
  _is_available linux_foo (recipe "Windows" (VBool true)) = Ok false ∧
  requirements linux_foo conan1 = (Ok tt, conan1) ∧
  is_enable linux_foo conan1 = Raise AttributeError.
Proof.
  intros conan1.
  assert (Hav : _is_available linux_foo (recipe "Windows" (VBool true)) = Ok false)
    by reflexivity.
  assert (Hv : options (recipe "Windows" (VBool true)) !! _name linux_foo = Some (VBool true))
    by reflexivity.
  destruct (hooks_after_removal linux_foo _ _ [] Hav Hv) as (H1 & _ & H3 & _).
  split; [exact Hav|]. split; [exact H1 | exact H3].
Defined.

(** [config_options] writes nothing but the removal: the platform and the
    registered requirements stay, the store never gains a binding, and the
    attributes under other names stay, so that another option reads the
    live value it read before. *)
Theorem config_options_frame a b conan :
  let conan1 := exec (config_options a) conan in
  settings_os conan1 = settings_os conan ∧
  requires conan1 = requires conan ∧
  options conan1 ⊆ options conan ∧
  (∀ k : string, k ≠ _name a → options conan1 !! k = options conan !! k) ∧
  (_name b ≠ _name a →
     get_value b conan1 = get_value b conan ∧
     is_enable b conan1 = is_enable b conan ∧
     _is_available b conan1 = _is_available b conan).
Proof.
  intros conan1. subst conan1. rewrite config_options_exec. cbn [settings_os requires options].
  split; [done|]. split; [done|].
  assert (Hframe : ∀ k : string, k ≠ _name a →
            match _is_available a conan with
            | Ok false => delete (_name a) (options conan)
            | _ => options conan
            end !! k = options conan !! k).
  { intros k Hk. destruct (_is_available a conan) as [[|]|e]; try done.
    by rewrite lookup_delete_ne. }
  split; [|split; [exact Hframe|]].
  - destruct (_is_available a conan) as [[|]|e]; try done. apply delete_subseteq.
  - intros Hne. specialize (Hframe _ Hne).
    split; [|split].
    + unfold get_value, getattr. cbn [options]. by rewrite Hframe.
    + rewrite !is_enable_run. cbn [options]. by rewrite Hframe.
    + by apply _is_available_settings.
Qed.

Lemma config_options_frame_witness :
  let conan := mkConan "Linux" {[ "qux" := VBool true; "foo" := VBool false ]} [] in
  _name simple_foo ≠ _name yesno_qux ∧
  get_value simple_foo (exec (config_options yesno_qux) conan) = Ok (VBool false).
Proof.
  intros conan.
  assert (Hne : _name simple_foo ≠ _name yesno_qux) by discriminate.
  destruct (config_options_frame yesno_qux simple_foo conan) as (_ & _ & _ & _ & H5).
  split; [exact Hne|]. destruct (H5 Hne) as (H6 & _). rewrite H6. reflexivity.
Defined.



(** [requirements] writes nothing but the registration: the platform and
    the option store stay, the requirements registered before stay in
    place, and at most one is added after them, the one the option bears. *)
Theorem requirements_frame self conan :
  let conan1 := exec (requirements self) conan in
  settings_os conan1 = settings_os conan ∧
  options conan1 = options conan ∧
  ∃ suffix : list PyVal,
    requires conan1 = (requires conan ++ suffix)%list ∧
    (suffix = [] ∨ suffix = [_requirements self]).
Proof.
  intros conan1. subst conan1. unfold exec. rewrite requirements_run.
  destruct (_is_available self conan) as [[|]|e];
    [ destruct (Py.truthy (_requirements self));
      [ destruct (is_enable self conan) as [[|]|e] | ] | | ];
    cbn [snd settings_os options requires];
    (split; [done|]); (split; [done|]);
    first [ exists [_requirements self]; split; [done|by right]
          | exists []; split; [by rewrite app_nil_r|by left] ].
Qed.

(** [requirements] is not idempotent: called twice on an enabled option, it
    registers the requirement twice. *)
Theorem requirements_twice_registers_twice self conan :
  _is_available self conan = Ok true →
  Py.truthy (_requirements self) = true →
  options conan !! _name self = Some (VBool true) →
  requires (exec (requirements self) (exec (requirements self) conan))
    = (requires conan ++ [_requirements self; _requirements self])%list.
Proof.
  intros Hav Ht Hv. unfold exec.
  rewrite (requirements_run self conan), is_enable_run, Hav, Ht, Hv. cbn [snd is_True].
  set (conan1 := mkConan _ _ _).
  assert (Hav1 : _is_available self conan1 = Ok true).
  { rewrite <- Hav. by apply _is_available_settings. }
  rewrite requirements_run, is_enable_run, Hav1, Ht. subst conan1. cbn [options].
  rewrite Hv. cbn [snd is_True requires]. by rewrite <- app_assoc.
Qed.

Lemma requirements_twice_registers_twice_witness :
  requires (exec (requirements linux_foo)
                 (exec (requirements linux_foo) (recipe "Linux" (VBool true))))
    = [VStr "zlib/1.2.11"; VStr "zlib/1.2.11"].
Proof.
  apply (requirements_twice_registers_twice linux_foo (recipe "Linux" (VBool true)));
    reflexivity.
Defined.

(** [requirements] raises AttributeError exactly when the option is
    available, bears a requirement and has no live value in the store; it
    returns exactly when the option is unavailable, or available with no
    requirement or with a live value. *)
Theorem requirements_raises_iff self conan :
  ((requirements self conan).1 = Raise AttributeError ↔
     _is_available self conan = Ok true ∧ Py.truthy (_requirements self) = true ∧
     options conan !! _name self = None) ∧
  ((requirements self conan).1 = Ok tt ↔
     _is_available self conan = Ok false ∨
     (_is_available self conan = Ok true ∧
      (Py.truthy (_requirements self) = false ∨ is_Some (options conan !! _name self)))).
Proof.
  rewrite requirements_run, is_enable_run.
  pose proof (_is_available_raise self conan) as Hte.
  destruct (_is_available self conan) as [[|]|e];
    [ destruct (Py.truthy (_requirements self));
      [ destruct (options conan !! _name self) as [v|]; [destruct (is_True v)|] | ] | | ];
    cbn [fst snd].
  - split; split; try done; try (by intros (_ & _ & ?)). intros _. right. eauto.
  - split; split; try done; try (by intros (_ & _ & ?)). intros _. right. eauto.
  - split; split; try done. intros [?|[_ [?|[? ?]]]]; done.
  - split; split; try done; try (by intros (_ & ? & _)). intros _. right. eauto.
  - split; split; try done; try (by intros (? & _)). intros _. by left.
  - rewrite (Hte e eq_refl).
    split; split; try done; try (by intros (? & _)). intros [?|[? _]]; done.
Qed.

End HooksCompose.

(** ** The further properties on sample inputs *)

Section Samples.

Lemma apply_option_appends_at_most_one_witness :
  ∃ suffix : list string,
    exec (apply_option yesno_qux (mkConan "Windows" {[ "qux" := VBool true ]} [])) ["-v"]
      = (["-v"] ++ suffix)%list ∧
    (length suffix ≤ 1)%nat.
Proof.
  destruct (apply_option_appends_at_most_one yesno_qux
              (mkConan "Windows" {[ "qux" := VBool true ]} []) ["-v"])
    as (suffix & H1 & H2 & _).
  exists suffix. split; [exact H1 | exact H2].
Defined.



Lemma requirements_raises_iff_witness :
  (requirements linux_foo (mkConan "Linux" ∅ [])).1 = Raise AttributeError ∧
  (requirements linux_foo (mkConan "Windows" ∅ [])).1 = Ok tt.
Proof.
  destruct (requirements_raises_iff linux_foo (mkConan "Linux" ∅ [])) as ([_ H1] & _).
  destruct (requirements_raises_iff linux_foo (mkConan "Windows" ∅ [])) as (_ & [_ H2]).
  split.
  - apply H1. split; [reflexivity|]. split; reflexivity.
  - apply H2. left. reflexivity.
Defined.

End Samples.
